(** * Log source configuration: tailing modes and [Validate]

    A shallow embedding of [config/logs/integration_config.go] (package
    [logs]).  Go strings are byte strings ([string]), [int] is [Z], the
    [uint8]-based [TailingMode] is [N], a Go [error] is [option error]
    ([None] is [nil]).  The two rule collaborators called by [Validate]
    live in another file of the package; they are parameters here, and
    every call to them is recorded in the state [Validate] threads. *)

From Stdlib Require Import String Ascii List ZArith NArith Bool Lia PrimFloat.
From ExtLib Require Import Structures.Monad Structures.MonadState Data.Monads.StateMonad.
Import ListNotations.
Import MonadNotation.
Local Open Scope string_scope.
Local Open Scope monad_scope.

(** ** Logs source types *)

Definition TCPType : string := "tcp".
Definition UDPType : string := "udp".
Definition FileType : string := "file".
Definition DockerType : string := "docker".
Definition JournaldType : string := "journald".
Definition WindowsEventType : string := "windows_event".
Definition SnmpTrapsType : string := "snmp_traps".
Definition StringChannelType : string := "string_channel".

(** The eight source-type constants, in declaration order. *)
Definition sourceTypes : list string :=
  [TCPType; UDPType; FileType; DockerType; JournaldType;
   WindowsEventType; SnmpTrapsType; StringChannelType].

(** ** Errors

    Every error of this file is built by [fmt.Errorf]; it is identified
    by its message. *)
Inductive error : Type :=
| Errorf (msg : string).

(** ** Tailing modes *)

Module TailingMode.

(** [type TailingMode uint8] *)
Definition t : Type := N.

End TailingMode.

(** [ForceBeginning = iota; ForceEnd; Beginning; End] *)
Definition ForceBeginning : TailingMode.t := 0%N.
Definition ForceEnd : TailingMode.t := 1%N.
Definition Beginning : TailingMode.t := 2%N.
Definition End_ : TailingMode.t := 3%N.

Definition tailingModeTuples : list (string * TailingMode.t) :=
  [("forceBeginning", ForceBeginning);
   ("forceEnd", ForceEnd);
   ("beginning", Beginning);
   ("end", End_)].

(** The [for _, t := range tuples] loop of [TailingModeFromString]: the
    first entry whose string is [mode] decides; [End], [false] after the
    last one. *)
Fixpoint scanFromString (tuples : list (string * TailingMode.t)) (mode : string)
  : TailingMode.t * bool :=
  match tuples with
  | [] => (End_, false)
  | (s, m) :: rest => if (s =? mode)%string then (m, true) else scanFromString rest mode
  end.

Definition TailingModeFromString (mode : string) : TailingMode.t * bool :=
  scanFromString tailingModeTuples mode.

(** The loop of the [String] method: the first entry whose mode is [mode]
    gives the string; the empty string after the last one. *)
Fixpoint scanToString (tuples : list (string * TailingMode.t)) (mode : TailingMode.t)
  : string :=
  match tuples with
  | [] => ""
  | (s, m) :: rest => if (m =? mode)%N then s else scanToString rest mode
  end.

Definition TailingMode_String (mode : TailingMode.t) : string :=
  scanToString tailingModeTuples mode.

(** ** Wildcards *)

(** Whether byte [c] occurs in [chars]. *)
Fixpoint hasByte (chars : string) (c : ascii) : bool :=
  match chars with
  | EmptyString => false
  | String d rest => if (d =? c)%char then true else hasByte rest c
  end.

(** [strings.ContainsAny(s, chars)] for a [chars] made of ASCII
    characters: some byte of [s] is one of them. *)
Fixpoint ContainsAny (s chars : string) : bool :=
  match s with
  | EmptyString => false
  | String c rest => if hasByte chars c then true else ContainsAny rest chars
  end.

Definition ContainsWildcard (path : string) : bool :=
  ContainsAny path "*?[".

(** ** The source descriptor and its validation *)

Section Validator.

(** [*ProcessingRule]: a reference to a rule object. *)
Variable ProcessingRule : Type.
(** [chan *ChannelMessage]: a reference this file never reads. *)
Variable ChannelRef : Type.
(** The memory the rule objects live in; compiling rules may change it. *)
Variable Heap : Type.

Record LogsConfig : Type := {
  Type_ : string;
  Port : Z;
  IdleTimeout : string;
  Path : string;
  Encoding : string;
  ExcludePaths : list string;
  TailingMode : string;
  IncludeUnits : list string;
  ExcludeUnits : list string;
  ContainerMode : bool;
  Image : string;
  Label : string;
  Name : string;
  Identifier : string;
  ChannelPath : string;
  Query : string;
  Channel : ChannelRef;
  Service : string;
  Source : string;
  SourceCategory : string;
  Tags : list string;
  ProcessingRules : list ProcessingRule;
  AutoMultiLine : bool;
  AutoMultiLineSampleSize : Z;
  AutoMultiLineMatchThreshold : float
}.

(** The collaborators [ValidateProcessingRules] and
    [CompileProcessingRules]: from a rule list and the memory, an error
    or [nil], and the memory afterwards. *)
Variable ValidateProcessingRules : list ProcessingRule -> Heap -> option error * Heap.
Variable CompileProcessingRules : list ProcessingRule -> Heap -> option error * Heap.

(** A call made to a collaborator. *)
Inductive call : Type :=
| CallValidateProcessingRules (rules : list ProcessingRule)
| CallCompileProcessingRules (rules : list ProcessingRule).

Definition isCompileCall (k : call) : bool :=
  match k with
  | CallCompileProcessingRules _ => true
  | CallValidateProcessingRules _ => false
  end.

(** What [Validate] runs in: the memory and the calls made so far,
    oldest first. *)
Record world : Type := {
  heap : Heap;
  calls : list call
}.

(** The world after one call of a collaborator that left memory [h]. *)
Definition called (w : world) (h : Heap) (k : call) : world :=
  {| heap := h; calls := calls w ++ [k] |}.

(** Calling collaborator [f] on [rules]; [tag] names the call. *)
Definition invoke (f : list ProcessingRule -> Heap -> option error * Heap)
           (tag : list ProcessingRule -> call) (rules : list ProcessingRule)
  : state world (option error) :=
  w <- get ;;
  let (err, h) := f rules (heap w) in
  put (called w h (tag rules)) ;;
  ret err.

Definition validateTailingMode (c : LogsConfig) : option error :=
  let (mode, found) := TailingModeFromString (TailingMode c) in
  if negb found && negb (TailingMode c =? "")%string then
    Some (Errorf ("invalid tailing mode '" ++ TailingMode c ++ "' for " ++ Path c))
  else if ContainsWildcard (Path c)
          && ((mode =? Beginning)%N || (mode =? ForceBeginning)%N) then
    Some (Errorf ("tailing from the beginning is not supported for wildcard path "
                    ++ Path c))
  else None.

(** The [switch] of [Validate]: [Some err] when a case returns [err],
    [None] when control leaves the switch (a case that returns nothing,
    or no case). *)
Definition Validate_switch (c : LogsConfig) : option error :=
  if (Type_ c =? "")%string then
    Some (Errorf "a config must have a type")
  else if (Type_ c =? FileType)%string then
    if (Path c =? "")%string then
      Some (Errorf "file source must have a path")
    else validateTailingMode c
  else if (Type_ c =? TCPType)%string && (Port c =? 0)%Z then
    Some (Errorf "tcp source must have a port")
  else if (Type_ c =? UDPType)%string && (Port c =? 0)%Z then
    Some (Errorf "udp source must have a port")
  else None.

(** The statements after the switch. *)
Definition Validate_rules (c : LogsConfig) : state world (option error) :=
  err <- invoke ValidateProcessingRules CallValidateProcessingRules (ProcessingRules c) ;;
  match err with
  | Some e => ret (Some e)
  | None => invoke CompileProcessingRules CallCompileProcessingRules (ProcessingRules c)
  end.

Definition Validate (c : LogsConfig) : state world (option error) :=
  match Validate_switch c with
  | Some err => ret (Some err)
  | None => Validate_rules c
  end.

(** Two descriptors that differ at most in [Path] and [TailingMode]. *)
Definition agree_but_Path_TailingMode (c1 c2 : LogsConfig) : Prop :=
  Type_ c1 = Type_ c2 /\
  Port c1 = Port c2 /\
  IdleTimeout c1 = IdleTimeout c2 /\
  Encoding c1 = Encoding c2 /\
  ExcludePaths c1 = ExcludePaths c2 /\
  IncludeUnits c1 = IncludeUnits c2 /\
  ExcludeUnits c1 = ExcludeUnits c2 /\
  ContainerMode c1 = ContainerMode c2 /\
  Image c1 = Image c2 /\
  Label c1 = Label c2 /\
  Name c1 = Name c2 /\
  Identifier c1 = Identifier c2 /\
  ChannelPath c1 = ChannelPath c2 /\
  Query c1 = Query c2 /\
  Channel c1 = Channel c2 /\
  Service c1 = Service c2 /\
  Source c1 = Source c2 /\
  SourceCategory c1 = SourceCategory c2 /\
  Tags c1 = Tags c2 /\
  ProcessingRules c1 = ProcessingRules c2 /\
  AutoMultiLine c1 = AutoMultiLine c2 /\
  AutoMultiLineSampleSize c1 = AutoMultiLineSampleSize c2 /\
  AutoMultiLineMatchThreshold c1 = AutoMultiLineMatchThreshold c2.

End Validator.

Arguments Type_ {ProcessingRule ChannelRef} _.
Arguments Port {ProcessingRule ChannelRef} _.
Arguments Path {ProcessingRule ChannelRef} _.
Arguments TailingMode {ProcessingRule ChannelRef} _.
Arguments ProcessingRules {ProcessingRule ChannelRef} _.
Arguments call ProcessingRule : clear implicits.
Arguments world ProcessingRule Heap : clear implicits.
Arguments heap {ProcessingRule Heap} _.
Arguments calls {ProcessingRule Heap} _.
Arguments CallValidateProcessingRules {ProcessingRule} _.
Arguments CallCompileProcessingRules {ProcessingRule} _.
Arguments isCompileCall {ProcessingRule} _.
Arguments called {ProcessingRule Heap} _ _ _.
Arguments agree_but_Path_TailingMode {ProcessingRule ChannelRef} _ _.
Arguments validateTailingMode {ProcessingRule ChannelRef} _.
Arguments Validate_switch {ProcessingRule ChannelRef} _.
Arguments Validate_rules {ProcessingRule ChannelRef Heap} _ _ _.
Arguments Validate {ProcessingRule ChannelRef Heap} _ _ _.

(** ** Concrete descriptors and collaborators

    Rule objects without compiled state: a rule is its name, the memory
    holds nothing. *)

Module Fixture.

Definition rule : Type := string.
Definition chan : Type := unit.
Definition mem : Type := unit.

(** A descriptor with the given type, port, path, tailing mode and
    rules; every other field has its zero value. *)
Definition source (type : string) (port : Z) (path mode : string)
           (rules : list rule) : LogsConfig rule chan :=
  {| Type_ := type; Port := port; IdleTimeout := ""; Path := path;
     Encoding := ""; ExcludePaths := []; TailingMode := mode;
     IncludeUnits := []; ExcludeUnits := []; ContainerMode := false;
     Image := ""; Label := ""; Name := ""; Identifier := "";
     ChannelPath := ""; Query := ""; Channel := tt;
     Service := ""; Source := ""; SourceCategory := ""; Tags := [];
     ProcessingRules := rules;
     AutoMultiLine := false; AutoMultiLineSampleSize := 0%Z;
     AutoMultiLineMatchThreshold := 0%float |}.

(** A collaborator that goes through the rules and objects to the first
    one without a name; with no rule there is nothing to object to. *)
Fixpoint namedRules (rules : list rule) (h : mem) : option error * mem :=
  match rules with
  | [] => (None, h)
  | r :: rest =>
      if (r =? "")%string
      then (Some (Errorf "all processing rules must have a name"), h)
      else namedRules rest h
  end.

(** Nothing called yet. *)
Definition start : world rule mem := {| heap := tt; calls := [] |}.

(** A collaborator that goes through the rules and objects to the first
    one whose pattern, here the rule itself, is an unclosed group. *)
Fixpoint closedGroups (rules : list rule) (h : mem) : option error * mem :=
  match rules with
  | [] => (None, h)
  | r :: rest =>
      if (r =? "(")%string
      then (Some (Errorf "missing closing )"), h)
      else closedGroups rest h
  end.

(** A tcp descriptor with the routing, tagging and multi-line fields
    filled in. *)
Definition tagged (port : Z) (rules : list rule) : LogsConfig rule chan :=
  {| Type_ := "tcp"; Port := port; IdleTimeout := "60s"; Path := "";
     Encoding := "utf-16-le"; ExcludePaths := ["/var/log/skip.log"];
     TailingMode := "";
     IncludeUnits := ["sshd.service"]; ExcludeUnits := []; ContainerMode := true;
     Image := "nginx"; Label := "app"; Name := "web"; Identifier := "abc123";
     ChannelPath := "System"; Query := "*"; Channel := tt;
     Service := "web"; Source := "nginx"; SourceCategory := "http";
     Tags := ["env:prod"];
     ProcessingRules := rules;
     AutoMultiLine := true; AutoMultiLineSampleSize := 500%Z;
     AutoMultiLineMatchThreshold := 0.5%float |}.

(** [Validate] with the collaborator above in both roles, run from
    [start]. *)
Definition validate (c : LogsConfig rule chan) : option error * world rule mem :=
  runState (Validate namedRules namedRules c) start.

End Fixture.

(** ** Facts about the table scans *)

Lemma TailingModeFromString_forceBeginning :
  TailingModeFromString "forceBeginning" = (ForceBeginning, true).
Proof. reflexivity. Qed.

Lemma TailingModeFromString_forceEnd :
  TailingModeFromString "forceEnd" = (ForceEnd, true).
Proof. reflexivity. Qed.

Lemma TailingModeFromString_beginning :
  TailingModeFromString "beginning" = (Beginning, true).
Proof. reflexivity. Qed.

Lemma TailingModeFromString_end :
  TailingModeFromString "end" = (End_, true).
Proof. reflexivity. Qed.

(** A scan that finds nothing: the string is no entry's string. *)
Lemma scanFromString_miss tuples mode :
  ~ In mode (map fst tuples) -> scanFromString tuples mode = (End_, false).
Proof.
  induction tuples as [|[s m] rest IH]; simpl; intros Hnot.
  - reflexivity.
  - destruct (String.eqb_spec s mode) as [Heq|Hne].
    + exfalso. apply Hnot. now left.
    + apply IH. intros Hin. apply Hnot. now right.
Qed.

(** A scan that finds an entry returns that entry. *)
Lemma scanFromString_hit tuples mode m :
  scanFromString tuples mode = (m, true) -> In (mode, m) tuples.
Proof.
  induction tuples as [|[s m'] rest IH]; simpl.
  - discriminate.
  - destruct (String.eqb_spec s mode) as [Heq|Hne].
    + intros [= <-]. left. now rewrite Heq.
    + intros H. right. auto.
Qed.

(** The found-indicator says whether the string is in the table. *)
Lemma scanFromString_found tuples mode :
  snd (scanFromString tuples mode) = true <-> In mode (map fst tuples).
Proof.
  induction tuples as [|[s m] rest IH]; simpl.
  - split; [discriminate | tauto].
  - destruct (String.eqb_spec s mode) as [Heq|Hne]; simpl.
    + split; auto.
    + rewrite IH. split; [auto | intros [H|H]; [contradiction | exact H]].
Qed.

(** Resolving to a from-the-beginning mode means the string was found. *)
Lemma TailingModeFromString_from_beginning mode :
  fst (TailingModeFromString mode) = Beginning \/
  fst (TailingModeFromString mode) = ForceBeginning ->
  snd (TailingModeFromString mode) = true.
Proof.
  intros H.
  destruct (snd (TailingModeFromString mode)) eqn:Hfound; [reflexivity|].
  assert (Hmiss : ~ In mode (map fst tailingModeTuples)).
  { intros Hin. apply scanFromString_found in Hin.
    unfold TailingModeFromString in Hfound. congruence. }
  apply scanFromString_miss in Hmiss.
  unfold TailingModeFromString in H. rewrite Hmiss in H.
  destruct H as [H|H]; discriminate H.
Qed.

(** ** Facts about wildcards *)

Lemma ContainsWildcard_nonempty path :
  ContainsWildcard path = true -> (path =? "")%string = false.
Proof. destruct path; [discriminate | reflexivity]. Qed.

Lemma ContainsAny_spec s chars :
  ContainsAny s chars = true <->
  exists c, In c (list_ascii_of_string s) /\ hasByte chars c = true.
Proof.
  induction s as [|c rest IH]; simpl.
  - split; [discriminate | intros [c [[] _]]].
  - destruct (hasByte chars c) eqn:Hc.
    + split; [intros _; exists c; auto | reflexivity].
    + rewrite IH. split.
      * intros [d [Hin Hd]]. exists d. auto.
      * intros [d [[Heq|Hin] Hd]]; [congruence | exists d; auto].
Qed.

(** X4: a path has a wildcard exactly when one of its bytes is [*], [?]
    or an opening bracket; no other byte counts. *)
Lemma ContainsWildcard_spec path :
  ContainsWildcard path = true <->
  exists c, In c (list_ascii_of_string path) /\
            (c = "*"%char \/ c = "?"%char \/ c = "["%char).
Proof.
  unfold ContainsWildcard. rewrite ContainsAny_spec.
  split; intros [c [Hin Hc]]; exists c; split; auto.
  - cbn [hasByte] in Hc.
    destruct (Ascii.eqb_spec "*" c); [auto|].
    destruct (Ascii.eqb_spec "?" c); [auto|].
    destruct (Ascii.eqb_spec "[" c); [auto|discriminate].
  - destruct Hc as [->|[->| ->]]; reflexivity.
Qed.

(** ** Running [Validate] *)

Section ValidateFacts.

Context {ProcessingRule ChannelRef Heap : Type}.
Variables V C : list ProcessingRule -> Heap -> option error * Heap.

Local Abbreviation config := (LogsConfig ProcessingRule ChannelRef).
Local Abbreviation World := (world ProcessingRule Heap).

(** A case of the switch returned: nothing was called. *)
Lemma run_switch_error (c : config) (w : World) e :
  Validate_switch c = Some e -> runState (Validate V C c) w = (Some e, w).
Proof. unfold Validate. intros ->. reflexivity. Qed.

(** Control left the switch: the rest is the two collaborator calls. *)
Lemma run_switch_passed (c : config) (w : World) :
  Validate_switch c = None ->
  runState (Validate V C c) w = runState (Validate_rules V C c) w.
Proof. unfold Validate. intros ->. reflexivity. Qed.

Lemma run_rules_rejected (c : config) (w : World) e h :
  V (ProcessingRules c) (heap w) = (Some e, h) ->
  runState (Validate_rules V C c) w
  = (Some e, called w h (CallValidateProcessingRules (ProcessingRules c))).
Proof.
  intros HV. unfold Validate_rules, invoke. simpl. rewrite HV. reflexivity.
Qed.

Lemma run_rules_accepted (c : config) (w : World) h r h' :
  V (ProcessingRules c) (heap w) = (None, h) ->
  C (ProcessingRules c) h = (r, h') ->
  runState (Validate_rules V C c) w
  = (r, called (called w h (CallValidateProcessingRules (ProcessingRules c)))
               h' (CallCompileProcessingRules (ProcessingRules c))).
Proof.
  intros HV HC. unfold Validate_rules, invoke. simpl. rewrite HV. simpl.
  rewrite HC. reflexivity.
Qed.

(** Success comes only out of the compile call. *)
Lemma run_success_passed_switch (c : config) (w : World) :
  fst (runState (Validate V C c) w) = None -> Validate_switch c = None.
Proof.
  destruct (Validate_switch c) as [e|] eqn:Hsw; [|reflexivity].
  rewrite (run_switch_error c w e Hsw). discriminate.
Qed.

(** The switch of a file source. *)
Lemma switch_file (c : config) :
  Type_ c = FileType ->
  Validate_switch c
  = if (Path c =? "")%string then Some (Errorf "file source must have a path")
    else validateTailingMode c.
Proof. unfold Validate_switch. intros ->. reflexivity. Qed.

(** The switch of a source that is not a file source reads the type
    and the port only. *)
Lemma switch_not_file (c : config) :
  Type_ c <> FileType ->
  Validate_switch c
  = if (Type_ c =? "")%string then Some (Errorf "a config must have a type")
    else if (Type_ c =? TCPType)%string && (Port c =? 0)%Z
         then Some (Errorf "tcp source must have a port")
    else if (Type_ c =? UDPType)%string && (Port c =? 0)%Z
         then Some (Errorf "udp source must have a port")
    else None.
Proof.
  intros Hnf. unfold Validate_switch.
  apply String.eqb_neq in Hnf. rewrite Hnf. reflexivity.
Qed.

(** No case of the switch is about a type outside the table of source
    types. *)
Lemma switch_unlisted_type (c : config) :
  Type_ c <> "" -> ~ In (Type_ c) sourceTypes -> Validate_switch c = None.
Proof.
  intros Hne Hnot.
  assert (Hf : Type_ c <> FileType) by (intros H; apply Hnot; rewrite H; simpl; tauto).
  assert (Ht : Type_ c <> TCPType) by (intros H; apply Hnot; rewrite H; simpl; tauto).
  assert (Hu : Type_ c <> UDPType) by (intros H; apply Hnot; rewrite H; simpl; tauto).
  rewrite (switch_not_file c Hf).
  apply String.eqb_neq in Hne, Ht, Hu. rewrite Hne, Ht, Hu. reflexivity.
Qed.

Lemma agree_Type (c1 c2 : config) :
  agree_but_Path_TailingMode c1 c2 -> Type_ c1 = Type_ c2.
Proof. intros H. apply H. Qed.

Lemma agree_Port (c1 c2 : config) :
  agree_but_Path_TailingMode c1 c2 -> Port c1 = Port c2.
Proof. intros H. apply H. Qed.

Lemma agree_ProcessingRules (c1 c2 : config) :
  agree_but_Path_TailingMode c1 c2 -> ProcessingRules c1 = ProcessingRules c2.
Proof. unfold agree_but_Path_TailingMode. intros H. tauto. Qed.

(** What follows the switch reads the rule list only. *)
Lemma run_rules_same_rules (c1 c2 : config) (w : World) :
  ProcessingRules c1 = ProcessingRules c2 ->
  runState (Validate_rules V C c1) w = runState (Validate_rules V C c2) w.
Proof. unfold Validate_rules. intros ->. reflexivity. Qed.

(** [Path] and [TailingMode] are not read for a source that is not a
    file source. *)
Lemma run_not_file_same (c1 c2 : config) (w : World) :
  agree_but_Path_TailingMode c1 c2 ->
  Type_ c1 <> FileType ->
  runState (Validate V C c1) w = runState (Validate V C c2) w.
Proof.
  intros Hagree Hnf.
  pose proof (agree_Type _ _ Hagree) as HT.
  pose proof (agree_Port _ _ Hagree) as HP.
  pose proof (agree_ProcessingRules _ _ Hagree) as HR.
  assert (Hnf2 : Type_ c2 <> FileType) by congruence.
  assert (Hsw : Validate_switch c1 = Validate_switch c2).
  { rewrite (switch_not_file c1 Hnf), (switch_not_file c2 Hnf2), HT, HP.
    reflexivity. }
  unfold Validate. rewrite Hsw.
  destruct (Validate_switch c2); [reflexivity|].
  apply run_rules_same_rules, HR.
Qed.

(** ** The switch, case by case *)

(** C8: a descriptor whose declared type is the empty string fails
    with "a config must have a type", whatever its other fields hold;
    the check comes first: no other check runs and no collaborator is
    called. *)
Theorem Validate_missing_type (c : config) (w : World) :
  Type_ c = "" ->
  runState (Validate V C c) w = (Some (Errorf "a config must have a type"), w).
Proof.
  intros Hty. apply run_switch_error.
  unfold Validate_switch. rewrite Hty. reflexivity.
Qed.

(** C6: a descriptor of type file with an empty path fails with "file
    source must have a path", whatever its other fields hold. *)
Theorem Validate_file_without_path (c : config) (w : World) :
  Type_ c = FileType ->
  Path c = "" ->
  runState (Validate V C c) w = (Some (Errorf "file source must have a path"), w).
Proof.
  intros Hty Hpath. apply run_switch_error.
  rewrite (switch_file c Hty), Hpath. reflexivity.
Qed.

(** C7: a tcp descriptor with port 0 fails with "tcp source must have
    a port"; a tcp descriptor with port 514 and an empty path passes
    when both collaborators accept its rules. *)
Theorem Validate_tcp_port (c : config) (w : World) :
  Type_ c = TCPType ->
  (Port c = 0%Z ->
   runState (Validate V C c) w = (Some (Errorf "tcp source must have a port"), w)) /\
  (Port c = 514%Z -> Path c = "" ->
   forall h h',
     V (ProcessingRules c) (heap w) = (None, h) ->
     C (ProcessingRules c) h = (None, h') ->
     fst (runState (Validate V C c) w) = None).
Proof.
  intros Hty. split.
  - intros Hport. apply run_switch_error.
    unfold Validate_switch. rewrite Hty, Hport. reflexivity.
  - intros Hport _ h h' HV HC.
    rewrite run_switch_passed.
    + rewrite (run_rules_accepted c w h None h' HV HC). reflexivity.
    + unfold Validate_switch. rewrite Hty, Hport. reflexivity.
Qed.

(** C3: for a file descriptor whose path has a wildcard, a tailing
    mode that resolves to beginning or force-beginning fails with the
    wildcard error naming the path, and the tailing mode "end" passes
    when both collaborators accept the rules. *)
Theorem Validate_wildcard_tailing (c : config) (w : World) :
  Type_ c = FileType ->
  ContainsWildcard (Path c) = true ->
  (fst (TailingModeFromString (TailingMode c)) = Beginning \/
   fst (TailingModeFromString (TailingMode c)) = ForceBeginning ->
   runState (Validate V C c) w
   = (Some (Errorf ("tailing from the beginning is not supported for wildcard path "
                      ++ Path c)), w)) /\
  (TailingMode c = "end" ->
   forall h h',
     V (ProcessingRules c) (heap w) = (None, h) ->
     C (ProcessingRules c) h = (None, h') ->
     fst (runState (Validate V C c) w) = None).
Proof.
  intros Hty Hwild.
  pose proof (switch_file c Hty) as Hsw.
  rewrite (ContainsWildcard_nonempty _ Hwild) in Hsw.
  unfold validateTailingMode in Hsw. rewrite Hwild in Hsw.
  split.
  - intros Hmode. apply run_switch_error. rewrite Hsw.
    pose proof (TailingModeFromString_from_beginning _ Hmode) as Hfound.
    destruct (TailingModeFromString (TailingMode c)) as [mode found].
    simpl in Hmode, Hfound. subst found.
    destruct Hmode as [-> | ->]; reflexivity.
  - intros Hend h h' HV HC.
    rewrite Hend in Hsw. simpl in Hsw.
    rewrite (run_switch_passed c w Hsw).
    rewrite (run_rules_accepted c w h None h' HV HC). reflexivity.
Qed.

(** ** After the switch *)

(** C2: when the switch lets a descriptor through and
    [ValidateProcessingRules] returns an error, [Validate] returns that
    error, the only call made is the one to [ValidateProcessingRules],
    and the memory is as that call left it: [CompileProcessingRules]
    is not called. *)
Theorem Validate_rule_error_skips_compile (c : config) (w : World) e h :
  Validate_switch c = None ->
  V (ProcessingRules c) (heap w) = (Some e, h) ->
  runState (Validate V C c) w
  = (Some e, called w h (CallValidateProcessingRules (ProcessingRules c))) /\
  (forall k,
      In k (calls (snd (runState (Validate V C c) w))) ->
      isCompileCall k = true ->
      In k (calls w)).
Proof.
  intros Hsw HV.
  assert (Hrun : runState (Validate V C c) w
                 = (Some e, called w h (CallValidateProcessingRules (ProcessingRules c)))).
  { rewrite (run_switch_passed c w Hsw). apply run_rules_rejected, HV. }
  split; [exact Hrun|].
  intros k Hin Hk. rewrite Hrun in Hin. simpl in Hin.
  apply in_app_or in Hin. destruct Hin as [Hin|[<-|[]]].
  - exact Hin.
  - discriminate Hk.
Qed.

(** C1, as the code has it: [Validate] succeeds only for a non-empty
    declared type; the type is not looked up in the fixed set.  For a
    non-empty type outside the set no case of the switch applies, and
    the outcome is that of the collaborators: the error of
    [ValidateProcessingRules] when it returns one, otherwise what
    [CompileProcessingRules] returns, so that [Validate] succeeds
    exactly when both accept the rule list. *)
Theorem Validate_success_needs_type (c : config) (w : World) :
  (fst (runState (Validate V C c) w) = None -> Type_ c <> "") /\
  (Type_ c <> "" -> ~ In (Type_ c) sourceTypes ->
   Validate_switch c = None /\
   (forall e h,
       V (ProcessingRules c) (heap w) = (Some e, h) ->
       runState (Validate V C c) w
       = (Some e, called w h (CallValidateProcessingRules (ProcessingRules c)))) /\
   (forall h r h',
       V (ProcessingRules c) (heap w) = (None, h) ->
       C (ProcessingRules c) h = (r, h') ->
       runState (Validate V C c) w
       = (r, called (called w h (CallValidateProcessingRules (ProcessingRules c)))
                    h' (CallCompileProcessingRules (ProcessingRules c)))) /\
   (fst (runState (Validate V C c) w) = None <->
    fst (V (ProcessingRules c) (heap w)) = None /\
    fst (C (ProcessingRules c) (snd (V (ProcessingRules c) (heap w)))) = None)).
Proof.
  split.
  - intros Hok Hty.
    apply run_success_passed_switch in Hok.
    unfold Validate_switch in Hok. rewrite Hty in Hok. discriminate Hok.
  - intros Hne Hnot.
    pose proof (switch_unlisted_type c Hne Hnot) as Hsw.
    split; [exact Hsw|]. split; [|split].
    + intros e h HV. rewrite (run_switch_passed c w Hsw).
      apply run_rules_rejected, HV.
    + intros h r h' HV HC. rewrite (run_switch_passed c w Hsw).
      apply run_rules_accepted; assumption.
    + rewrite (run_switch_passed c w Hsw).
      destruct (V (ProcessingRules c) (heap w)) as [[e|] h] eqn:HV.
      * rewrite (run_rules_rejected c w e h HV). simpl.
        split; [discriminate | intros [H _]; discriminate H].
      * destruct (C (ProcessingRules c) h) as [r h'] eqn:HC.
        rewrite (run_rules_accepted c w h r h' HV HC). simpl.
        rewrite HC. simpl.
        split; [intros ->; auto | intros [_ H]; exact H].
Qed.

(** C10: two descriptors that agree on every field but [TailingMode]
    and [Path], of type tcp with a non-zero port, get the same result
    from [Validate], and the switch lets both through; more generally
    the result is the same whenever the shared type is not file. *)
Theorem Validate_ignores_file_fields (c1 c2 : config) (w : World) :
  agree_but_Path_TailingMode c1 c2 ->
  (Type_ c1 = TCPType -> Port c1 <> 0%Z ->
   runState (Validate V C c1) w = runState (Validate V C c2) w /\
   Validate_switch c1 = None /\ Validate_switch c2 = None) /\
  (Type_ c1 <> FileType -> runState (Validate V C c1) w = runState (Validate V C c2) w).
Proof.
  intros Hagree. split.
  - intros Hty Hport.
    assert (Hnf : Type_ c1 <> FileType) by (rewrite Hty; discriminate).
    split; [apply run_not_file_same; assumption|].
    assert (Hsw : forall c : config,
               Type_ c = TCPType -> Port c <> 0%Z -> Validate_switch c = None).
    { intros c Ht Hp. unfold Validate_switch. rewrite Ht.
      apply Z.eqb_neq in Hp. rewrite Hp. reflexivity. }
    split; apply Hsw; try assumption.
    + rewrite <- (agree_Type _ _ Hagree). exact Hty.
    + rewrite <- (agree_Port _ _ Hagree). exact Hport.
  - intros Hnf. apply run_not_file_same; assumption.
Qed.

End ValidateFacts.

(** ** The tailing-mode table read both ways *)

(** C4: each of the four canonical strings resolves with success, and
    the resolved mode renders as the same string. *)
Theorem TailingMode_resolve_then_render (s : string) :
  In s ["forceBeginning"; "forceEnd"; "beginning"; "end"] ->
  snd (TailingModeFromString s) = true /\
  TailingMode_String (fst (TailingModeFromString s)) = s.
Proof.
  simpl. intros [<-|[<-|[<-|[<-|[]]]]]; split; reflexivity.
Qed.

(** C9: each of the four modes renders as a string that resolves, with
    success, to the same mode. *)
Theorem TailingMode_render_then_resolve (m : TailingMode.t) :
  In m [ForceBeginning; ForceEnd; Beginning; End_] ->
  TailingModeFromString (TailingMode_String m) = (m, true).
Proof.
  simpl. intros [<-|[<-|[<-|[<-|[]]]]]; reflexivity.
Qed.

(** C5: the empty string, "unknown-garbage" and every string that is
    not in the table resolve to [End] with the indicator false; "end"
    resolves to [End] with the indicator true, so the indicator tells
    the two apart while the mode does not. *)
Theorem TailingModeFromString_default :
  (forall s, ~ In s (map fst tailingModeTuples) ->
             TailingModeFromString s = (End_, false)) /\
  TailingModeFromString "" = (End_, false) /\
  TailingModeFromString "unknown-garbage" = (End_, false) /\
  TailingModeFromString "end" = (End_, true) /\
  (forall s, ~ In s (map fst tailingModeTuples) ->
             fst (TailingModeFromString s) = fst (TailingModeFromString "end") /\
             snd (TailingModeFromString s) <> snd (TailingModeFromString "end")).
Proof.
  split; [|split; [|split; [|split]]]; try reflexivity.
  - intros s Hs. apply scanFromString_miss, Hs.
  - intros s Hs. unfold TailingModeFromString at 1 3.
    rewrite (scanFromString_miss _ _ Hs). split; [reflexivity | discriminate].
Qed.

(** ** The theorems at concrete descriptors *)

Example Validate_sideways :
  Fixture.validate (Fixture.source "file" 0 "/var/log/app.log" "sideways" [])
  = (Some (Errorf "invalid tailing mode 'sideways' for /var/log/app.log"),
     Fixture.start).
Proof. reflexivity. Qed.

Example Validate_udp_without_port :
  Fixture.validate (Fixture.source "udp" 0 "" "" [])
  = (Some (Errorf "udp source must have a port"), Fixture.start).
Proof. reflexivity. Qed.

Example Validate_file_default_mode :
  fst (Fixture.validate (Fixture.source "file" 0 "/var/log/*.log" "" [])) = None.
Proof. reflexivity. Qed.

Example Validate_calls_in_order :
  calls (snd (Fixture.validate (Fixture.source "journald" 0 "" "" ["mask"])))
  = [CallValidateProcessingRules ["mask"]; CallCompileProcessingRules ["mask"]].
Proof. reflexivity. Qed.

Example TailingMode_String_out_of_table :
  TailingMode_String 4%N = "".
Proof. reflexivity. Qed.

Example ContainsWildcard_bracket :
  ContainsWildcard "/var/log/app[12].log" = true
  /\ ContainsWildcard "/var/log/app.log" = false.
Proof. split; reflexivity. Qed.

(** The type "kafka" is not one of the eight source types, and a
    descriptor of that type with no rules is accepted: the membership
    reading of C1 fails on it. *)
Lemma Validate_accepts_unlisted_type :
  Type_ (Fixture.source "kafka" 0 "" "" []) <> "" /\
  ~ In (Type_ (Fixture.source "kafka" 0 "" "" [])) sourceTypes /\
  fst (Fixture.validate (Fixture.source "kafka" 0 "" "" [])) = None.
Proof.
  split; [discriminate|]. split; [|reflexivity].
  simpl. intros H.
  repeat (destruct H as [H|H]; [discriminate H|]). exact H.
Qed.

Lemma Validate_success_needs_type_witness :
  (fst (Fixture.validate (Fixture.source "docker" 0 "" "" [])) = None /\
   Type_ (Fixture.source "docker" 0 "" "" []) <> "") /\
  (Type_ (Fixture.source "kafka" 0 "" "" []) <> "" /\
   ~ In (Type_ (Fixture.source "kafka" 0 "" "" [])) sourceTypes /\
   Validate_switch (Fixture.source "kafka" 0 "" "" []) = None /\
   fst (Fixture.validate (Fixture.source "kafka" 0 "" "" [])) = None) /\
  (~ In (Type_ (Fixture.source "kafka" 0 "" "" [""])) sourceTypes /\
   Fixture.validate (Fixture.source "kafka" 0 "" "" [""])
   = (Some (Errorf "all processing rules must have a name"),
      called Fixture.start tt (CallValidateProcessingRules [""]))) /\
  (~ In (Type_ (Fixture.source "kafka" 0 "" "" ["("])) sourceTypes /\
   runState (Validate Fixture.namedRules Fixture.closedGroups
               (Fixture.source "kafka" 0 "" "" ["("]))
            Fixture.start
   = (Some (Errorf "missing closing )"),
      called (called Fixture.start tt (CallValidateProcessingRules ["("]))
             tt (CallCompileProcessingRules ["("]))).
Proof.
  assert (Hnot : forall rules,
             ~ In (Type_ (Fixture.source "kafka" 0 "" "" rules)) sourceTypes).
  { intros rules. simpl. intros H.
    repeat (destruct H as [H|H]; [discriminate H|]). exact H. }
  assert (Hty : forall rules, Type_ (Fixture.source "kafka" 0 "" "" rules) <> "")
    by discriminate.
  pose proof (Validate_success_needs_type Fixture.namedRules Fixture.namedRules
                (Fixture.source "docker" 0 "" "" []) Fixture.start) as [Hdocker _].
  destruct (Validate_success_needs_type Fixture.namedRules Fixture.namedRules
              (Fixture.source "kafka" 0 "" "" []) Fixture.start)
    as [_ Hnone].
  destruct (Hnone (Hty []) (Hnot [])) as [Hsw [_ [_ Hiff]]].
  destruct (Validate_success_needs_type Fixture.namedRules Fixture.namedRules
              (Fixture.source "kafka" 0 "" "" [""]) Fixture.start)
    as [_ Hunnamed].
  destruct (Hunnamed (Hty [""]) (Hnot [""])) as [_ [Hrej _]].
  destruct (Validate_success_needs_type Fixture.namedRules Fixture.closedGroups
              (Fixture.source "kafka" 0 "" "" ["("]) Fixture.start)
    as [_ Hgroup].
  destruct (Hgroup (Hty ["("]) (Hnot ["("])) as [_ [_ [Hacc _]]].
  split; [split; [reflexivity | apply Hdocker; reflexivity]|].
  split.
  { split; [apply Hty|]. split; [apply Hnot|]. split; [exact Hsw|].
    apply Hiff. split; reflexivity. }
  split.
  - split; [apply Hnot|]. apply (Hrej _ tt). reflexivity.
  - split; [apply Hnot|].
    apply (Hacc tt (Some (Errorf "missing closing )")) tt); reflexivity.
Defined.

Lemma Validate_rule_error_skips_compile_witness :
  Validate_switch (Fixture.source "docker" 0 "" "" [""]) = None /\
  Fixture.namedRules [""] tt
  = (Some (Errorf "all processing rules must have a name"), tt) /\
  Fixture.validate (Fixture.source "docker" 0 "" "" [""])
  = (Some (Errorf "all processing rules must have a name"),
     called Fixture.start tt (CallValidateProcessingRules [""])).
Proof.
  split; [reflexivity|]. split; [reflexivity|].
  apply (Validate_rule_error_skips_compile Fixture.namedRules Fixture.namedRules
           (Fixture.source "docker" 0 "" "" [""]) Fixture.start); reflexivity.
Defined.

Lemma Validate_wildcard_tailing_witness :
  ContainsWildcard "/var/log/app/*.log" = true /\
  Fixture.validate (Fixture.source "file" 0 "/var/log/app/*.log" "beginning" [])
  = (Some (Errorf ("tailing from the beginning is not supported for wildcard path "
                     ++ "/var/log/app/*.log")),
     Fixture.start) /\
  fst (Fixture.validate (Fixture.source "file" 0 "/var/log/app/*.log" "end" [])) = None.
Proof.
  split; [reflexivity|]. split.
  - apply (Validate_wildcard_tailing Fixture.namedRules Fixture.namedRules
             (Fixture.source "file" 0 "/var/log/app/*.log" "beginning" [])
             Fixture.start); try reflexivity.
    left. reflexivity.
  - apply (proj2 (Validate_wildcard_tailing Fixture.namedRules Fixture.namedRules
                    (Fixture.source "file" 0 "/var/log/app/*.log" "end" [])
                    Fixture.start eq_refl eq_refl) eq_refl tt tt); reflexivity.
Defined.

Lemma Validate_file_without_path_witness :
  Fixture.validate (Fixture.source "file" 514 "" "beginning" ["mask"])
  = (Some (Errorf "file source must have a path"), Fixture.start).
Proof.
  apply (Validate_file_without_path Fixture.namedRules Fixture.namedRules
           (Fixture.source "file" 514 "" "beginning" ["mask"]) Fixture.start);
    reflexivity.
Defined.

Lemma Validate_tcp_port_witness :
  Fixture.validate (Fixture.source "tcp" 0 "" "" [])
  = (Some (Errorf "tcp source must have a port"), Fixture.start) /\
  fst (Fixture.validate (Fixture.source "tcp" 514 "" "" [])) = None.
Proof.
  split.
  - apply (Validate_tcp_port Fixture.namedRules Fixture.namedRules
             (Fixture.source "tcp" 0 "" "" []) Fixture.start); reflexivity.
  - apply (proj2 (Validate_tcp_port Fixture.namedRules Fixture.namedRules
                    (Fixture.source "tcp" 514 "" "" []) Fixture.start eq_refl)
             eq_refl eq_refl tt tt); reflexivity.
Defined.

Lemma Validate_missing_type_witness :
  Fixture.validate (Fixture.source "" 514 "/var/log/app.log" "end" ["mask"])
  = (Some (Errorf "a config must have a type"), Fixture.start).
Proof.
  apply (Validate_missing_type Fixture.namedRules Fixture.namedRules
           (Fixture.source "" 514 "/var/log/app.log" "end" ["mask"]) Fixture.start).
  reflexivity.
Defined.

Lemma Validate_ignores_file_fields_witness :
  agree_but_Path_TailingMode
    (Fixture.source "tcp" 514 "" "" ["mask"])
    (Fixture.source "tcp" 514 "/var/log/*.log" "sideways" ["mask"]) /\
  Fixture.validate (Fixture.source "tcp" 514 "" "" ["mask"])
  = Fixture.validate (Fixture.source "tcp" 514 "/var/log/*.log" "sideways" ["mask"]) /\
  fst (Fixture.validate (Fixture.source "tcp" 514 "/var/log/*.log" "sideways" ["mask"]))
  = None.
Proof.
  assert (Hagree : agree_but_Path_TailingMode
                     (Fixture.source "tcp" 514 "" "" ["mask"])
                     (Fixture.source "tcp" 514 "/var/log/*.log" "sideways" ["mask"])).
  { unfold agree_but_Path_TailingMode. simpl. repeat split. }
  split; [exact Hagree|]. split; [|reflexivity].
  destruct (Validate_ignores_file_fields Fixture.namedRules Fixture.namedRules
              _ _ Fixture.start Hagree) as [Htcp _].
  apply Htcp; [reflexivity | discriminate].
Defined.

Lemma TailingMode_resolve_then_render_witness :
  In "beginning" ["forceBeginning"; "forceEnd"; "beginning"; "end"] /\
  snd (TailingModeFromString "beginning") = true /\
  TailingMode_String (fst (TailingModeFromString "beginning")) = "beginning".
Proof.
  assert (Hin : In "beginning" ["forceBeginning"; "forceEnd"; "beginning"; "end"])
    by (simpl; tauto).
  split; [exact Hin | exact (TailingMode_resolve_then_render "beginning" Hin)].
Defined.

Lemma TailingMode_render_then_resolve_witness :
  In Beginning [ForceBeginning; ForceEnd; Beginning; End_] /\
  TailingModeFromString (TailingMode_String Beginning) = (Beginning, true).
Proof.
  assert (Hin : In Beginning [ForceBeginning; ForceEnd; Beginning; End_])
    by (simpl; tauto).
  split; [exact Hin | exact (TailingMode_render_then_resolve Beginning Hin)].
Defined.

Lemma TailingModeFromString_default_witness :
  ~ In "sideways" (map fst tailingModeTuples) /\
  TailingModeFromString "sideways" = (End_, false).
Proof.
  assert (Hnot : ~ In "sideways" (map fst tailingModeTuples)).
  { simpl. intros H.
    repeat (destruct H as [H|H]; [discriminate H|]). exact H. }
  split; [exact Hnot | exact (proj1 TailingModeFromString_default "sideways" Hnot)].
Defined.

(** ** More on the tailing-mode table *)

(** The five ways a string can resolve. *)
Lemma TailingModeFromString_cases (s : string) :
  (s = "forceBeginning" /\ TailingModeFromString s = (ForceBeginning, true)) \/
  (s = "forceEnd" /\ TailingModeFromString s = (ForceEnd, true)) \/
  (s = "beginning" /\ TailingModeFromString s = (Beginning, true)) \/
  (s = "end" /\ TailingModeFromString s = (End_, true)) \/
  (~ In s (map fst tailingModeTuples) /\ TailingModeFromString s = (End_, false)).
Proof.
  destruct (in_dec string_dec s (map fst tailingModeTuples)) as [Hin|Hnot].
  - simpl in Hin. destruct Hin as [<-|[<-|[<-|[<-|[]]]]]; auto 6.
  - do 4 right. split; [exact Hnot | apply scanFromString_miss, Hnot].
Qed.

(** A mode is one of the four constants or lies above them. *)
Lemma TailingMode_cases (m : TailingMode.t) :
  m = ForceBeginning \/ m = ForceEnd \/ m = Beginning \/ m = End_ \/ (End_ < m)%N.
Proof. unfold ForceBeginning, ForceEnd, Beginning, End_. lia. Qed.

(** X1: the found-indicator of [TailingModeFromString] is true exactly
    for the four strings of the table, compared byte by byte. *)
Theorem TailingModeFromString_found_iff (s : string) :
  snd (TailingModeFromString s) = true <->
  s = "forceBeginning" \/ s = "forceEnd" \/ s = "beginning" \/ s = "end".
Proof.
  unfold TailingModeFromString. rewrite scanFromString_found. simpl.
  intuition congruence.
Qed.

(** X2: [TailingModeFromString] and the [String] method are inverse to
    each other away from the empty string: [s] resolves to [m] with
    success exactly when [m] renders as [s] and [s] is not empty. *)
Theorem TailingMode_resolve_iff_render (s : string) (m : TailingMode.t) :
  TailingModeFromString s = (m, true) <->
  TailingMode_String m = s /\ s <> "".
Proof.
  split.
  - intros H.
    destruct (TailingModeFromString_cases s)
      as [[-> E]|[[-> E]|[[-> E]|[[-> E]|[_ E]]]]];
      rewrite E in H; inversion H; subst; split; (reflexivity || discriminate).
  - intros [Hs Hne].
    destruct (TailingMode_cases m) as [->|[->|[->|[->|Hbig]]]];
      try (rewrite <- Hs; reflexivity).
    exfalso. apply Hne. rewrite <- Hs.
    unfold TailingMode_String, tailingModeTuples, scanToString.
    unfold ForceBeginning, ForceEnd, Beginning, End_ in *.
    repeat match goal with
           | |- context [N.eqb ?a m] =>
               destruct (N.eqb_spec a m); [lia|]
           end.
    reflexivity.
Qed.

(** X3: the [String] method gives the empty string exactly for the
    values above the four constants. *)
Theorem TailingMode_String_empty_iff (m : TailingMode.t) :
  TailingMode_String m = "" <-> (End_ < m)%N.
Proof.
  split.
  - intros H.
    destruct (TailingMode_cases m) as [->|[->|[->|[->|Hbig]]]];
      try discriminate H. exact Hbig.
  - intros Hbig.
    unfold TailingMode_String, tailingModeTuples, scanToString.
    unfold ForceBeginning, ForceEnd, Beginning, End_ in *.
    repeat match goal with
           | |- context [N.eqb ?a m] =>
               destruct (N.eqb_spec a m); [lia|]
           end.
    reflexivity.
Qed.

(** ** More on wildcards *)

Lemma ContainsAny_app (a b chars : string) :
  ContainsAny (a ++ b) chars = ContainsAny a chars || ContainsAny b chars.
Proof.
  induction a as [|c a IH]; simpl.
  - reflexivity.
  - destruct (hasByte chars c); [reflexivity | exact IH].
Qed.

(** X5: a path put together from two pieces has a wildcard exactly when
    one of the pieces has. *)
Theorem ContainsWildcard_app (a b : string) :
  ContainsWildcard (a ++ b) = ContainsWildcard a || ContainsWildcard b.
Proof. apply ContainsAny_app. Qed.

(** ** More on [validateTailingMode] and the switch *)

Section ValidateMore.

Context {ProcessingRule ChannelRef Heap : Type}.
Variables V C : list ProcessingRule -> Heap -> option error * Heap.

Local Abbreviation config := (LogsConfig ProcessingRule ChannelRef).
Local Abbreviation World := (world ProcessingRule Heap).

(** [validateTailingMode] once the string is known to be in the table
    or empty: only the wildcard test is left. *)
Lemma validateTailingMode_resolved (c : config) m found :
  TailingModeFromString (TailingMode c) = (m, found) ->
  found = true \/ TailingMode c = "" ->
  validateTailingMode c
  = if ContainsWildcard (Path c) && ((m =? Beginning)%N || (m =? ForceBeginning)%N)
    then Some (Errorf ("tailing from the beginning is not supported for wildcard path "
                         ++ Path c))
    else None.
Proof.
  intros Hres Hok. unfold validateTailingMode. rewrite Hres.
  destruct Hok as [-> | ->]; [reflexivity|].
  rewrite andb_false_r. reflexivity.
Qed.

(** [validateTailingMode] on a string that is neither empty nor in the
    table. *)
Lemma validateTailingMode_unknown (c : config) :
  TailingMode c <> "" ->
  ~ In (TailingMode c) (map fst tailingModeTuples) ->
  validateTailingMode c
  = Some (Errorf ("invalid tailing mode '" ++ TailingMode c ++ "' for " ++ Path c)).
Proof.
  intros Hne Hnot. unfold validateTailingMode, TailingModeFromString.
  rewrite (scanFromString_miss _ _ Hnot).
  apply String.eqb_neq in Hne. rewrite Hne. reflexivity.
Qed.

(** X6: [validateTailingMode] accepts a descriptor exactly when its
    tailing-mode string is empty or one of the four table strings, and,
    if the path has a wildcard, the string is neither "beginning" nor
    "forceBeginning". *)
Theorem validateTailingMode_accepts_iff (c : config) :
  validateTailingMode c = None <->
  (TailingMode c = "" \/ In (TailingMode c) (map fst tailingModeTuples)) /\
  (ContainsWildcard (Path c) = true ->
   TailingMode c <> "beginning" /\ TailingMode c <> "forceBeginning").
Proof.
  destruct (TailingModeFromString_cases (TailingMode c))
    as [[Hs E]|[[Hs E]|[[Hs E]|[[Hs E]|[Hnot E]]]]].
  1-4: rewrite (validateTailingMode_resolved c _ _ E (or_introl eq_refl));
       rewrite Hs; destruct (ContainsWildcard (Path c)); simpl;
       (split;
        [ first [ discriminate
                | intros _; split;
                  [ auto 7
                  | intros Hw; first [discriminate Hw | split; discriminate] ] ]
        | first [ reflexivity
                | intros [_ H]; destruct (H eq_refl) as [H1 H2]; congruence ] ]).
  - destruct (string_dec (TailingMode c) "") as [Hempty|Hne].
    + rewrite (validateTailingMode_resolved c _ _ E (or_intror Hempty)).
      rewrite andb_false_r. rewrite Hempty.
      split; [|reflexivity]. intros _. split; [now left|].
      intros _. split; discriminate.
    + rewrite (validateTailingMode_unknown c Hne Hnot).
      split; [discriminate|]. intros [[H|H] _]; contradiction.
Qed.

(** X7: the switch of [Validate] lets a descriptor through exactly when
    its type is not empty, a file source has a path and a tailing mode
    [validateTailingMode] accepts, and a tcp or udp source has a port
    other than 0; nothing else about the descriptor is looked at. *)
Theorem Validate_switch_passes_iff (c : config) :
  Validate_switch c = None <->
  Type_ c <> "" /\
  (Type_ c = FileType -> Path c <> "" /\ validateTailingMode c = None) /\
  (Type_ c = TCPType -> Port c <> 0%Z) /\
  (Type_ c = UDPType -> Port c <> 0%Z).
Proof.
  unfold Validate_switch.
  destruct (String.eqb_spec (Type_ c) "") as [Hempty|Hne].
  { split; [discriminate | intros [H _]; contradiction]. }
  destruct (String.eqb_spec (Type_ c) FileType) as [Hfile|Hnf].
  { destruct (String.eqb_spec (Path c) "") as [Hp|Hp].
    - split; [discriminate|]. intros [_ [H _]]. destruct (H Hfile). contradiction.
    - split.
      + intros Hv. split; [exact Hne|]. split; [auto|].
        split; intros H; rewrite H in Hfile; discriminate Hfile.
      + intros [_ [H _]]. apply H, Hfile. }
  assert (Hfileimp : Type_ c = FileType -> Path c <> "" /\ validateTailingMode c = None)
    by (intros H; contradiction).
  destruct (Z.eqb_spec (Port c) 0) as [Hp|Hp].
  - destruct (String.eqb_spec (Type_ c) TCPType) as [Htcp|Hnt]; simpl.
    + split; [discriminate|]. intros [_ [_ [H _]]]. destruct (H Htcp Hp).
    + destruct (String.eqb_spec (Type_ c) UDPType) as [Hudp|Hnu]; simpl.
      * split; [discriminate|]. intros [_ [_ [_ H]]]. destruct (H Hudp Hp).
      * split; [|reflexivity]. intros _.
        split; [exact Hne|]. split; [exact Hfileimp|].
        split; intros H; contradiction.
  - rewrite !andb_false_r. split; [|reflexivity]. intros _.
    split; [exact Hne|]. split; [exact Hfileimp|].
    split; intros _; exact Hp.
Qed.

(** X8: a file descriptor with a path, whose tailing-mode string is not
    empty and not in the table, fails with the invalid-tailing-mode
    error naming the string and the path, whether or not the path has a
    wildcard; no collaborator is called. *)
Theorem Validate_invalid_tailing_mode (c : config) (w : World) :
  Type_ c = FileType ->
  Path c <> "" ->
  TailingMode c <> "" ->
  ~ In (TailingMode c) (map fst tailingModeTuples) ->
  runState (Validate V C c) w
  = (Some (Errorf ("invalid tailing mode '" ++ TailingMode c ++ "' for " ++ Path c)), w).
Proof.
  intros Hty Hpath Hne Hnot. apply run_switch_error.
  rewrite (switch_file c Hty).
  apply String.eqb_neq in Hpath. rewrite Hpath.
  apply validateTailingMode_unknown; assumption.
Qed.

(** X9: a udp descriptor with port 0 fails with "udp source must have a
    port" and no collaborator is called; with any other port, negative
    or above 65535 included, the switch lets it through. *)
Theorem Validate_udp_port (c : config) (w : World) :
  Type_ c = UDPType ->
  (Port c = 0%Z ->
   runState (Validate V C c) w = (Some (Errorf "udp source must have a port"), w)) /\
  (Port c <> 0%Z -> Validate_switch c = None).
Proof.
  intros Hty. split.
  - intros Hport. apply run_switch_error.
    unfold Validate_switch. rewrite Hty, Hport. reflexivity.
  - intros Hport. unfold Validate_switch. rewrite Hty.
    apply Z.eqb_neq in Hport. rewrite Hport. reflexivity.
Qed.

(** X10: a file descriptor with a path passes the switch when its
    tailing-mode string is empty, "end" or "forceEnd", wildcard or not,
    and when its path has no wildcard and the string is any of the four
    table strings. *)
Theorem Validate_switch_file_passes (c : config) :
  Type_ c = FileType ->
  Path c <> "" ->
  In (TailingMode c) [""; "end"; "forceEnd"] \/
  (ContainsWildcard (Path c) = false /\
   In (TailingMode c) (map fst tailingModeTuples)) ->
  Validate_switch c = None.
Proof.
  intros Hty Hpath Hmode.
  rewrite (switch_file c Hty).
  apply String.eqb_neq in Hpath. rewrite Hpath.
  destruct (TailingModeFromString (TailingMode c)) as [m found] eqn:E.
  assert (Hok : found = true \/ TailingMode c = "").
  { destruct Hmode as [Hin|[_ Hin]].
    - simpl in Hin. destruct Hin as [H|[H|[H|[]]]]; [right; now symmetry| |];
        left; rewrite <- H in E; inversion E; reflexivity.
    - left. apply scanFromString_found in Hin.
      unfold TailingModeFromString in E. rewrite E in Hin. exact Hin. }
  rewrite (validateTailingMode_resolved c m found E Hok).
  destruct Hmode as [Hin|[Hnw _]].
  - simpl in Hin. destruct Hin as [H|[H|[H|[]]]];
      rewrite <- H in E; inversion E; subst;
      destruct (ContainsWildcard (Path c)); reflexivity.
  - rewrite Hnw. reflexivity.
Qed.

(** ** More on the collaborator calls *)

(** X11: [Validate] succeeds exactly when the switch lets the descriptor
    through, [ValidateProcessingRules] accepts the rule list, and
    [CompileProcessingRules], run on the memory the first call left,
    accepts it too. *)
Theorem Validate_succeeds_iff (c : config) (w : World) :
  fst (runState (Validate V C c) w) = None <->
  Validate_switch c = None /\
  fst (V (ProcessingRules c) (heap w)) = None /\
  fst (C (ProcessingRules c) (snd (V (ProcessingRules c) (heap w)))) = None.
Proof.
  destruct (Validate_switch c) as [e|] eqn:Hsw.
  - rewrite (run_switch_error V C c w e Hsw). simpl.
    split; [discriminate | intros [H _]; discriminate H].
  - rewrite (run_switch_passed V C c w Hsw).
    destruct (V (ProcessingRules c) (heap w)) as [[e|] h] eqn:HV.
    + rewrite (run_rules_rejected V C c w e h HV). simpl.
      split; [discriminate | intros [_ [H _]]; discriminate H].
    + destruct (C (ProcessingRules c) h) as [r h'] eqn:HC.
      rewrite (run_rules_accepted V C c w h r h' HV HC). simpl.
      rewrite HC. simpl.
      split; [intros ->; auto | intros [_ [_ H]]; exact H].
Qed.

(** X12: when the switch lets the descriptor through and
    [ValidateProcessingRules] accepts, [Validate] returns what
    [CompileProcessingRules] returns, error or not, on the same rule
    list and on the memory the first call left; the two calls are made
    in that order, once each. *)
Theorem Validate_returns_compile_result (c : config) (w : World) h r h' :
  Validate_switch c = None ->
  V (ProcessingRules c) (heap w) = (None, h) ->
  C (ProcessingRules c) h = (r, h') ->
  runState (Validate V C c) w
  = (r, {| heap := h';
           calls := calls w ++ [CallValidateProcessingRules (ProcessingRules c);
                                CallCompileProcessingRules (ProcessingRules c)] |}).
Proof.
  intros Hsw HV HC.
  rewrite (run_switch_passed V C c w Hsw).
  rewrite (run_rules_accepted V C c w h r h' HV HC).
  unfold called. simpl. rewrite <- app_assoc. reflexivity.
Qed.

(** X13: whatever the descriptor and the collaborators, [Validate] keeps
    the calls made before it and adds none, or one call of
    [ValidateProcessingRules], or that call followed by one of
    [CompileProcessingRules], always on the descriptor's own rule list;
    when it adds none, the memory is untouched. *)
Theorem Validate_call_discipline (c : config) (w : World) :
  exists l : list (call ProcessingRule),
    calls (snd (runState (Validate V C c) w)) = (calls w ++ l)%list /\
    (l = [] \/
     l = [CallValidateProcessingRules (ProcessingRules c)] \/
     l = [CallValidateProcessingRules (ProcessingRules c);
          CallCompileProcessingRules (ProcessingRules c)]) /\
    (l = [] -> snd (runState (Validate V C c) w) = w).
Proof.
  destruct (Validate_switch c) as [e|] eqn:Hsw.
  - exists []. rewrite (run_switch_error V C c w e Hsw). simpl.
    rewrite app_nil_r. auto.
  - rewrite (run_switch_passed V C c w Hsw).
    destruct (V (ProcessingRules c) (heap w)) as [[e|] h] eqn:HV.
    + exists [CallValidateProcessingRules (ProcessingRules c)].
      rewrite (run_rules_rejected V C c w e h HV). simpl.
      split; [reflexivity|]. split; [auto | discriminate].
    + destruct (C (ProcessingRules c) h) as [r h'] eqn:HC.
      exists [CallValidateProcessingRules (ProcessingRules c);
              CallCompileProcessingRules (ProcessingRules c)].
      rewrite (run_rules_accepted V C c w h r h' HV HC). simpl.
      rewrite <- app_assoc.
      split; [reflexivity|]. split; [auto | discriminate].
Qed.

(** X14: [Validate] reads five fields only: two descriptors with the
    same type, port, path, tailing-mode string and rule list get the
    same result and leave the same world, whatever their other fields
    hold. *)
Theorem Validate_reads_five_fields (c1 c2 : config) (w : World) :
  Type_ c1 = Type_ c2 ->
  Port c1 = Port c2 ->
  Path c1 = Path c2 ->
  TailingMode c1 = TailingMode c2 ->
  ProcessingRules c1 = ProcessingRules c2 ->
  runState (Validate V C c1) w = runState (Validate V C c2) w.
Proof.
  intros HT HP HPath HM HR.
  unfold Validate, Validate_switch, validateTailingMode, Validate_rules.
  rewrite HT, HP, HPath, HM, HR. reflexivity.
Qed.

End ValidateMore.

(** ** The further theorems at concrete descriptors *)

Example Validate_capitalised_mode :
  fst (Fixture.validate (Fixture.source "file" 0 "/var/log/app.log" "End" []))
  = Some (Errorf "invalid tailing mode 'End' for /var/log/app.log").
Proof. reflexivity. Qed.

Example Validate_capitalised_type :
  fst (Fixture.validate (Fixture.source "File" 0 "" "sideways" [])) = None.
Proof. reflexivity. Qed.

Lemma Validate_invalid_tailing_mode_witness :
  runState (Validate Fixture.namedRules Fixture.namedRules
              (Fixture.source "file" 0 "/var/log/*.log" "Beginning" ["mask"]))
           Fixture.start
  = (Some (Errorf "invalid tailing mode 'Beginning' for /var/log/*.log"),
     Fixture.start).
Proof.
  apply (Validate_invalid_tailing_mode Fixture.namedRules Fixture.namedRules
           (Fixture.source "file" 0 "/var/log/*.log" "Beginning" ["mask"])
           Fixture.start); try discriminate; try reflexivity.
  simpl. intros H.
  repeat (destruct H as [H|H]; [discriminate H|]). exact H.
Defined.

Lemma Validate_udp_port_witness :
  runState (Validate Fixture.namedRules Fixture.namedRules
              (Fixture.source "udp" 0 "" "" []))
           Fixture.start
  = (Some (Errorf "udp source must have a port"), Fixture.start) /\
  Validate_switch (Fixture.source "udp" (-1) "" "" []) = None.
Proof.
  split.
  - apply (Validate_udp_port Fixture.namedRules Fixture.namedRules
             (Fixture.source "udp" 0 "" "" []) Fixture.start); reflexivity.
  - apply (Validate_udp_port Fixture.namedRules Fixture.namedRules
             (Fixture.source "udp" (-1) "" "" []) Fixture.start);
      [reflexivity | discriminate].
Defined.

Lemma Validate_switch_file_passes_witness :
  Validate_switch (Fixture.source "file" 0 "/var/log/*.log" "forceEnd" []) = None /\
  Validate_switch (Fixture.source "file" 0 "/var/log/app.log" "beginning" []) = None.
Proof.
  split.
  - apply (Validate_switch_file_passes
             (Fixture.source "file" 0 "/var/log/*.log" "forceEnd" []));
      [reflexivity | discriminate | left; simpl; auto].
  - apply (Validate_switch_file_passes
             (Fixture.source "file" 0 "/var/log/app.log" "beginning" []));
      [reflexivity | discriminate | right; split; [reflexivity | simpl; auto]].
Defined.

Lemma Validate_returns_compile_result_witness :
  runState (Validate Fixture.namedRules Fixture.closedGroups
              (Fixture.source "journald" 0 "" "" ["("]))
           Fixture.start
  = (Some (Errorf "missing closing )"),
     {| heap := tt;
        calls := [CallValidateProcessingRules ["("];
                  CallCompileProcessingRules ["("]] |}).
Proof.
  apply (Validate_returns_compile_result Fixture.namedRules Fixture.closedGroups
           (Fixture.source "journald" 0 "" "" ["("]) Fixture.start tt
           (Some (Errorf "missing closing )")) tt); reflexivity.
Defined.

Lemma Validate_reads_five_fields_witness :
  runState (Validate Fixture.namedRules Fixture.closedGroups
              (Fixture.tagged 514 ["mask"]))
           Fixture.start
  = runState (Validate Fixture.namedRules Fixture.closedGroups
                (Fixture.source "tcp" 514 "" "" ["mask"]))
             Fixture.start.
Proof.
  apply (Validate_reads_five_fields Fixture.namedRules Fixture.closedGroups
           (Fixture.tagged 514 ["mask"]) (Fixture.source "tcp" 514 "" "" ["mask"])
           Fixture.start); reflexivity.
Defined.
